(** * ReCall front end: the agreement gate and the navigation coordinator

    A shallow embedding of [frontend/App.js]: the six [useState] cells of the
    [App] component, its handlers ([checkAgreementStatus],
    [handleAcceptAgreement], [handleOpenConversation], [handleNavigateTab],
    [handleToggleTheme] and the inline [onPress]/[onBack] callbacks) and the
    rule that picks what [App] returns.

    Handlers are written in a small state-and-exception monad over a [World]
    made of the component state, the device's [AsyncStorage] and a journal of
    the calls a handler made (state setters, storage calls, [console.warn]),
    in the order it made them. *)

From Stdlib Require Import PrimFloat.
From stdpp Require Import base strings list gmap.

(** ** JavaScript values *)

(** The values a handler can be called with.  Numbers are IEEE doubles, as in
    the language; objects and functions are finite maps from own property
    names to values (no prototype chain, no getters); what a function
    computes is kept by the world (see [functions] below). *)
#[warnings="-register-all"]
Inductive JsVal : Type :=
| JUndefined
| JNull
| JBool (b : bool)
| JNum (x : float)
| JBigInt (n : Z)
| JStr (s : string)
| JSymbol (description : string)
| JObj (props : gmap string JsVal)
| JFun (props : gmap string JsVal).

Module Js.

(** [typeof v] *)
Definition typeof (v : JsVal) : string :=
  match v with
  | JUndefined => "undefined"
  | JNull => "object"
  | JBool _ => "boolean"
  | JNum _ => "number"
  | JBigInt _ => "bigint"
  | JStr _ => "string"
  | JSymbol _ => "symbol"
  | JObj _ => "object"
  | JFun _ => "function"
  end.

(** [ToBoolean]: what [!v], [v ? a : b] and [v && a] test. *)
Definition truthy (v : JsVal) : bool :=
  match v with
  | JUndefined | JNull => false
  | JBool b => b
  | JNum x => negb (PrimFloat.is_zero x || PrimFloat.is_nan x)
  | JBigInt n => negb (Z.eqb n 0)
  | JStr s => negb (String.eqb s "")
  | JSymbol _ => true
  | JObj _ | JFun _ => true
  end.

(** [v === 'lit'] for a string literal. *)
Definition strict_eq_str (v : JsVal) (lit : string) : bool :=
  match v with
  | JStr s => String.eqb s lit
  | _ => false
  end.

(** [v.k] on a value already known not to be [null] or [undefined]:
    the own property, [undefined] when there is none. *)
Definition get (v : JsVal) (k : string) : JsVal :=
  match v with
  | JObj props | JFun props => default JUndefined (props !! k)
  | _ => JUndefined
  end.

End Js.

(** ** The component state and its world *)

(** One field per [useState] cell of [App], with the cell's name.  The three
    agreement flags and the theme flag only ever receive booleans;
    [activeTab] and [activeConversation] receive whatever the callers of
    [handleNavigateTab] and [handleOpenConversation] pass. *)
Record AppState : Type := mkApp {
  activeTab : JsVal;
  activeConversation : JsVal;
  hasAcceptedAgreement : bool;
  isCheckingAgreement : bool;
  agreementChecked : bool;
  isRetroTheme : bool
}.

(** The device storage behind [AsyncStorage]: string items, and whether the
    next read or write is going to reject (and with which error). *)
Record Storage : Type := mkStorage {
  items : gmap string string;
  getItemError : option JsVal;
  setItemError : option JsVal
}.

(** What a handler did, call by call. *)
Inductive Call : Type :=
| Call_getItem (key : string)
| Call_setItem (key value : string)
| Call_setActiveTab (v : JsVal)
| Call_setActiveConversation (v : JsVal)
| Call_setHasAcceptedAgreement (b : bool)
| Call_setIsCheckingAgreement (b : bool)
| Call_setAgreementChecked
| Call_setIsRetroTheme
| Call_console_warn (message : string) (error : JsVal).

(** [functions] is what the function values around compute: [functions w f
    x] is what [f] returns when it is called on [x].  Only React calls
    one, as the updater of a state setter; an updater has to be pure, and
    is taken here to return. *)
Record World : Type := mkWorld {
  app : AppState;
  storage : Storage;
  journal : list Call;
  functions : JsVal → JsVal → JsVal
}.

(** ** The handler monad *)

(** How a piece of code ends: normally with a value, or by throwing (for an
    [async] function: its promise resolves or rejects). *)
Inductive Completion (A : Type) : Type :=
| Normal (a : A)
| Thrown (error : JsVal).
Arguments Normal {A} a.
Arguments Thrown {A} error.

Definition M (A : Type) : Type := World → Completion A * World.

Definition ret {A} (a : A) : M A := λ w, (Normal a, w).

Definition bind {A B} (m : M A) (k : A → M B) : M B :=
  λ w, match m w with
       | (Normal a, w') => k a w'
       | (Thrown e, w') => (Thrown e, w')
       end.

Definition throw {A} (e : JsVal) : M A := λ w, (Thrown e, w).

#[global] Instance M_ret : MRet M := @ret.
#[global] Instance M_bind : MBind M := λ A B k m, bind m k.

(** [try { body } catch (error) { handler }] *)
Definition try_catch {A} (body : M A) (handler : JsVal → M A) : M A :=
  λ w, match body w with
       | (Normal a, w') => (Normal a, w')
       | (Thrown e, w') => handler e w'
       end.

(** [try { body } catch (error) { handler } finally { final }] *)
Definition try_catch_finally {A} (body : M A) (handler : JsVal → M A)
    (final : M unit) : M A :=
  λ w, match try_catch body handler w with
       | (c, w') =>
           match final w' with
           | (Normal _, w'') => (c, w'')
           | (Thrown e, w'') => (Thrown e, w'')
           end
       end.

Definition completion {A} (m : M A) (w : World) : Completion A := (m w).1.
Definition exec {A} (m : M A) (w : World) : World := (m w).2.

(** *** Primitive actions *)

Definition record (c : Call) : M unit :=
  λ w, (Normal (),
        mkWorld (app w) (storage w) (journal w ++ [c]) (functions w)).

Definition modify_app (f : AppState → AppState) : M unit :=
  λ w, (Normal (), mkWorld (f (app w)) (storage w) (journal w) (functions w)).

Definition with_activeTab (v : JsVal) (s : AppState) : AppState :=
  mkApp v (activeConversation s) (hasAcceptedAgreement s)
        (isCheckingAgreement s) (agreementChecked s) (isRetroTheme s).
Definition with_activeConversation (v : JsVal) (s : AppState) : AppState :=
  mkApp (activeTab s) v (hasAcceptedAgreement s)
        (isCheckingAgreement s) (agreementChecked s) (isRetroTheme s).
Definition with_hasAcceptedAgreement (b : bool) (s : AppState) : AppState :=
  mkApp (activeTab s) (activeConversation s) b
        (isCheckingAgreement s) (agreementChecked s) (isRetroTheme s).
Definition with_isCheckingAgreement (b : bool) (s : AppState) : AppState :=
  mkApp (activeTab s) (activeConversation s) (hasAcceptedAgreement s)
        b (agreementChecked s) (isRetroTheme s).
Definition with_agreementChecked (b : bool) (s : AppState) : AppState :=
  mkApp (activeTab s) (activeConversation s) (hasAcceptedAgreement s)
        (isCheckingAgreement s) b (isRetroTheme s).
Definition with_isRetroTheme (b : bool) (s : AppState) : AppState :=
  mkApp (activeTab s) (activeConversation s) (hasAcceptedAgreement s)
        (isCheckingAgreement s) (agreementChecked s) b.

(** What a setter returned by [useState] stores when called with [arg]
    while the cell holds [prev]: a function is an updater, and what it
    returns for [prev] is stored; anything else is stored as it is. *)
Definition useState_update (w : World) (arg prev : JsVal) : JsVal :=
  match arg with
  | JFun _ => functions w arg prev
  | _ => arg
  end.

Definition update_activeTab (arg : JsVal) : M unit :=
  λ w, (Normal (),
        mkWorld (with_activeTab
                   (useState_update w arg (activeTab (app w))) (app w))
                (storage w) (journal w) (functions w)).

Definition update_activeConversation (arg : JsVal) : M unit :=
  λ w, (Normal (),
        mkWorld (with_activeConversation
                   (useState_update w arg (activeConversation (app w)))
                   (app w))
                (storage w) (journal w) (functions w)).

(** The state setters returned by [useState].  The two that receive values
    from outside [App] follow [useState_update]; the other four are only
    ever called as written below. *)
Definition setActiveTab (v : JsVal) : M unit :=
  record (Call_setActiveTab v) ;; update_activeTab v.
Definition setActiveConversation (v : JsVal) : M unit :=
  record (Call_setActiveConversation v) ;; update_activeConversation v.
Definition setHasAcceptedAgreement (b : bool) : M unit :=
  record (Call_setHasAcceptedAgreement b) ;;
  modify_app (with_hasAcceptedAgreement b).
Definition setIsCheckingAgreement (b : bool) : M unit :=
  record (Call_setIsCheckingAgreement b) ;;
  modify_app (with_isCheckingAgreement b).
(** The two setters below are only ever called with the updater
    [(prev) => !prev], written out. *)
Definition setAgreementChecked_not : M unit :=
  record Call_setAgreementChecked ;;
  modify_app (λ s, with_agreementChecked (negb (agreementChecked s)) s).
Definition setIsRetroTheme_not : M unit :=
  record Call_setIsRetroTheme ;;
  modify_app (λ s, with_isRetroTheme (negb (isRetroTheme s)) s).

Definition console_warn (message : string) (error : JsVal) : M unit :=
  record (Call_console_warn message error).

(** *** AsyncStorage, awaited *)

Module AsyncStorage.

(** What the device answers to a read: the stored string, [null] when the
    key is absent, or a rejection. *)
Definition read (key : string) : M JsVal :=
  λ w, match getItemError (storage w) with
       | Some e => (Thrown e, w)
       | None =>
           (Normal (from_option JStr JNull (items (storage w) !! key)), w)
       end.

(** [await AsyncStorage.getItem(key)] *)
Definition getItem (key : string) : M JsVal :=
  record (Call_getItem key) ;; read key.

(** What the device does with a write: stores the string, or rejects and
    stores nothing. *)
Definition write (key value : string) : M unit :=
  λ w, match setItemError (storage w) with
       | Some e => (Thrown e, w)
       | None =>
           (Normal (),
            mkWorld (app w)
                    (mkStorage (<[key := value]> (items (storage w)))
                               (getItemError (storage w))
                               (setItemError (storage w)))
                    (journal w) (functions w))
       end.

(** [await AsyncStorage.setItem(key, value)] *)
Definition setItem (key value : string) : M unit :=
  record (Call_setItem key value) ;; write key value.

End AsyncStorage.

(** ** The handlers of [App] *)

Definition AGREEMENT_STORAGE_KEY : string := "upload_agreement_accepted_v1".

(** The effect run once at mount. *)
Definition checkAgreementStatus : M unit :=
  try_catch_finally
    (storedValue ← AsyncStorage.getItem AGREEMENT_STORAGE_KEY;
     if Js.strict_eq_str storedValue "true"
     then setHasAcceptedAgreement true
     else mret ())
    (λ error, console_warn "Failed to read agreement preference" error)
    (setIsCheckingAgreement false).

Definition handleAcceptAgreement : M unit :=
  try_catch
    (AsyncStorage.setItem AGREEMENT_STORAGE_KEY "true" ;;
     setHasAcceptedAgreement true)
    (λ error, console_warn "Failed to save agreement acceptance" error).

(** [handleAcceptAgreement] up to its [await]: [setItem] has been called
    and its promise is pending. *)
Definition handleAcceptAgreement_issue : M unit :=
  record (Call_setItem AGREEMENT_STORAGE_KEY "true").

(** [handleAcceptAgreement] from its [await] on: the storage settles the
    write, and the handler goes on to [setHasAcceptedAgreement(true)] or
    lands in its [catch]. *)
Definition handleAcceptAgreement_resume : M unit :=
  try_catch
    (AsyncStorage.write AGREEMENT_STORAGE_KEY "true" ;;
     setHasAcceptedAgreement true)
    (λ error, console_warn "Failed to save agreement acceptance" error).

(** [const { name, highlightTimestamp, highlightIndex, avatarUrl, headline }
    = v]: a [TypeError] when [v] is [null] or [undefined].  On the objects
    [JsVal] holds (own data properties only) reading a property cannot
    throw; on an object with accessors it could, and the source does not
    guard against that. *)
Definition destructure_target (v : JsVal)
  : M (JsVal * JsVal * JsVal * JsVal * JsVal) :=
  match v with
  | JUndefined | JNull => throw (JStr "TypeError")
  | _ => mret (Js.get v "name", Js.get v "highlightTimestamp",
               Js.get v "highlightIndex", Js.get v "avatarUrl",
               Js.get v "headline")
  end.

(** The object literal [{ name, highlightTimestamp, highlightIndex,
    avatarUrl, headline }]. *)
Definition conversation_target
    (name highlightTimestamp highlightIndex avatarUrl headline : JsVal)
  : JsVal :=
  JObj (<["name" := name]>
        (<["highlightTimestamp" := highlightTimestamp]>
         (<["highlightIndex" := highlightIndex]>
          (<["avatarUrl" := avatarUrl]>
           (<["headline" := headline]> ∅))))).

Definition handleOpenConversation (payload : JsVal) : M unit :=
  if negb (Js.truthy payload) then mret () else
  let normalizedPayload :=
    if String.eqb (Js.typeof payload) "string"
    then JObj {[ "name" := payload ]}
    else payload in
  if negb (Js.truthy normalizedPayload)
     || negb (String.eqb (Js.typeof normalizedPayload) "object")
  then mret () else
  '(name, highlightTimestamp, highlightIndex, avatarUrl, headline)
     ← destructure_target normalizedPayload;
  if negb (Js.truthy name) then mret () else
  setActiveConversation
    (conversation_target name highlightTimestamp highlightIndex
                         avatarUrl headline) ;;
  setActiveTab (JStr "memory").

Definition handleNavigateTab (tab : JsVal) : M unit :=
  if negb (Js.truthy tab) then mret () else
  setActiveConversation JNull ;;
  setActiveTab tab.

Definition handleToggleTheme : M unit := setIsRetroTheme_not.

(** [onBack={() => setActiveConversation(null)}] of both conversation
    screens. *)
Definition onBack : M unit := setActiveConversation JNull.

(** [onPress] of the agreement checkbox. *)
Definition onPressCheckbox : M unit := setAgreementChecked_not.

(** [onPress] of the four items of the bottom navigation bar, each written
    out with its own literal. *)
Definition onPressNavItem (tab : string) : M unit :=
  setActiveConversation JNull ;;
  setActiveTab (JStr tab).

(** ** What [App] returns *)

(** The screen components [App] can mount, by their names in the source.
    The two conversation screens carry the props read off
    [activeConversation]. *)
Inductive Screen : Type :=
| HomeScreen
| RetroHomeScreen
| UploadScreen
| RetroUploadScreen
| PeopleScreen
| RetroPeopleScreen
| HighlightsScreen
| RetroHighlightsScreen
| ConversationScreen
    (name avatarUrl headline highlightTimestamp highlightIndex : JsVal)
| RetroConversationScreen
    (name avatarUrl headline highlightTimestamp highlightIndex : JsVal).

(** [cond && element] as a child: the element, or nothing. *)
Definition and_render (cond : bool) (element : Screen) : list Screen :=
  if cond then [element] else [].

(** The children of the container that come before the theme button. *)
Definition render_content (s : AppState) : list Screen :=
  let c := activeConversation s in
  if Js.truthy c then
    [ if isRetroTheme s
      then RetroConversationScreen
             (Js.get c "name") (Js.get c "avatarUrl") (Js.get c "headline")
             (Js.get c "highlightTimestamp") (Js.get c "highlightIndex")
      else ConversationScreen
             (Js.get c "name") (Js.get c "avatarUrl") (Js.get c "headline")
             (Js.get c "highlightTimestamp") (Js.get c "highlightIndex") ]
  else
    and_render (Js.strict_eq_str (activeTab s) "home")
               (if isRetroTheme s then RetroHomeScreen else HomeScreen)
    ++ and_render (Js.strict_eq_str (activeTab s) "upload")
                  (if isRetroTheme s then RetroUploadScreen else UploadScreen)
    ++ and_render (Js.strict_eq_str (activeTab s) "memory")
                  (if isRetroTheme s then RetroPeopleScreen else PeopleScreen)
    ++ and_render (Js.strict_eq_str (activeTab s) "highlights")
                  (if isRetroTheme s
                   then RetroHighlightsScreen else HighlightsScreen).

(** The three things [App] can return: the spinner, the agreement form
    (with its checkbox; the button is disabled unless it is checked), or the
    application proper (its screens, and whether the theme button is
    there; the navigation bar always is). *)
Inductive View : Type :=
| LoadingView
| AgreementView (checked : bool)
| MainView (content : list Screen) (themeToggleButton : bool).

Definition render (s : AppState) : View :=
  if isCheckingAgreement s then LoadingView
  else if negb (hasAcceptedAgreement s) then AgreementView (agreementChecked s)
  else MainView (render_content s)
                (negb (Js.truthy (activeConversation s))
                 && Js.strict_eq_str (activeTab s) "home").

(** ** Sessions *)

(** The four tabs of the navigation bar. *)
Inductive Tab : Type := home | upload | highlights | memory.

Definition tab_id (t : Tab) : string :=
  match t with
  | home => "home"
  | upload => "upload"
  | highlights => "highlights"
  | memory => "memory"
  end.

(** What can happen to a mounted [App]: its mount effect, a press on one of
    its own controls, a call from a screen through [onOpenConversation] or
    [onNavigateTab] with any argument at all, the device's storage
    starting or ceasing to fail, and the screens defining what the
    functions they pass compute.

    [handleAcceptAgreement] is [async]: [PressedAgree] is a press whose
    write settles before anything else happens; [PressedAgreePending] is a
    press alone, the handler run up to its [await] with the write left in
    flight, and [WriteSettled] is a write in flight settling, the handler
    run from its [await] on.  (Under the spinner there is no control, so
    nothing of [App] can run between the two halves of the mount
    effect.) *)
Inductive Event : Type :=
| Mounted
| PressedCheckbox
| PressedAgree
| OpenConversation (payload : JsVal)
| NavigateTab (tab : JsVal)
| PressedBack
| PressedThemeToggle
| PressedNavItem (t : Tab)
| StorageFaults (onGet onSet : option JsVal)
| PressedAgreePending
| WriteSettled
| FunctionsDefined (behaviour : JsVal → JsVal → JsVal).

Definition set_faults (onGet onSet : option JsVal) : M unit :=
  λ w, (Normal (),
        mkWorld (app w) (mkStorage (items (storage w)) onGet onSet)
                (journal w) (functions w)).

Definition set_functions (behaviour : JsVal → JsVal → JsVal) : M unit :=
  λ w, (Normal (), mkWorld (app w) (storage w) (journal w) behaviour).

Definition dispatch (ev : Event) : M unit :=
  match ev with
  | Mounted => checkAgreementStatus
  | PressedCheckbox => onPressCheckbox
  | PressedAgree => handleAcceptAgreement
  | OpenConversation payload => handleOpenConversation payload
  | NavigateTab tab => handleNavigateTab tab
  | PressedBack => onBack
  | PressedThemeToggle => handleToggleTheme
  | PressedNavItem t => onPressNavItem (tab_id t)
  | StorageFaults onGet onSet => set_faults onGet onSet
  | PressedAgreePending => handleAcceptAgreement_issue
  | WriteSettled => handleAcceptAgreement_resume
  | FunctionsDefined behaviour => set_functions behaviour
  end.

Definition step (w : World) (ev : Event) : World := exec (dispatch ev) w.

(** Any events in any order, so also more than [App] allows: a press on a
    control that is not rendered, a write settling that was never issued.
    [ui_run] below keeps to what the rendered controls allow. *)
Definition run (evs : list Event) (w : World) : World := foldl step w evs.

(** The arguments of [useState]. *)
Definition initialApp : AppState :=
  mkApp (JStr "home") JNull false true false false.

(** A fresh launch on a storage; until a screen says otherwise, functions
    return [undefined]. *)
Definition boot (st : Storage) : World :=
  mkWorld initialApp st [] (λ _ _, JUndefined).

(** A storage that works, holding the given items. *)
Definition healthy (m : gmap string string) : Storage := mkStorage m None None.

(** ** The controls [App] renders *)

(** The four items of the bottom navigation bar, in the order they are
    written, each with whether it gets [styles.navItemActive]. *)
Definition render_navBar (s : AppState) : list (Tab * bool) :=
  [ (home, Js.strict_eq_str (activeTab s) "home");
    (upload, Js.strict_eq_str (activeTab s) "upload");
    (highlights, Js.strict_eq_str (activeTab s) "highlights");
    (memory, Js.strict_eq_str (activeTab s) "memory") ].

(** The callbacks [App] hands to each screen: [onOpenConversation] and
    [onNavigateTab] to the home screens, [onOpenConversation] to the people
    and highlights screens, [onBack] to the conversation screens, none to
    the upload screens. *)
Definition screen_offers (scr : Screen) (ev : Event) : bool :=
  match scr, ev with
  | (HomeScreen | RetroHomeScreen), (OpenConversation _ | NavigateTab _) =>
      true
  | (PeopleScreen | RetroPeopleScreen
     | HighlightsScreen | RetroHighlightsScreen), OpenConversation _ => true
  | (ConversationScreen _ _ _ _ _ | RetroConversationScreen _ _ _ _ _),
    PressedBack => true
  | _, _ => false
  end.

(** Whether an event can happen while [App] shows a given view.  The mount
    effect runs while the spinner is up (the spinner has no control and
    [isCheckingAgreement] is what takes it down); the agreement form has the
    checkbox, and the button with [disabled={!agreementChecked}]; the
    application has the navigation bar, the theme button when it is
    rendered, and the callbacks of the screens it mounts (a screen calls
    its callbacks only once mounted).  The storage fails when it likes,
    and settles a write when it likes, though never under the spinner: a
    write is only issued from the form, which comes after it. *)
Definition offers (v : View) (ev : Event) : bool :=
  match ev with
  | StorageFaults _ _ => true
  | Mounted => match v with LoadingView => true | _ => false end
  | PressedCheckbox => match v with AgreementView _ => true | _ => false end
  | PressedAgree =>
      match v with AgreementView checked => checked | _ => false end
  | PressedNavItem _ => match v with MainView _ _ => true | _ => false end
  | PressedThemeToggle =>
      match v with MainView _ themeToggleButton => themeToggleButton
              | _ => false end
  | OpenConversation _ | NavigateTab _ | PressedBack =>
      match v with
      | MainView content _ => existsb (λ scr, screen_offers scr ev) content
      | _ => false
      end
  | PressedAgreePending =>
      match v with AgreementView checked => checked | _ => false end
  | WriteSettled => match v with LoadingView => false | _ => true end
  | FunctionsDefined _ => true
  end.

(** Whether an event can happen with [pending] writes in flight, and how
    many are in flight after it. *)
Definition can_happen (pending : nat) (ev : Event) : bool :=
  match ev with
  | WriteSettled => negb (Nat.eqb pending 0)
  | _ => true
  end.

Definition pending_after (pending : nat) (ev : Event) : nat :=
  match ev with
  | PressedAgreePending => S pending
  | WriteSettled => Nat.pred pending
  | _ => pending
  end.

(** A session driven through the rendered controls only, started with
    [pending] writes in flight: [None] as soon as an event is not offered
    by the view of the moment, or is a write settling when none is in
    flight. *)
Fixpoint ui_run_pending (pending : nat) (evs : list Event) (w : World)
  : option World :=
  match evs with
  | [] => Some w
  | ev :: evs' =>
      if offers (render (app w)) ev && can_happen pending ev
      then ui_run_pending (pending_after pending ev) evs' (step w ev)
      else None
  end.

Definition ui_run (evs : list Event) (w : World) : option World :=
  ui_run_pending 0 evs w.

(** How many times the theme button, or the checkbox, is pressed. *)
Definition theme_presses (evs : list Event) : nat :=
  length (List.filter
            (λ ev, match ev with PressedThemeToggle => true | _ => false end)
            evs).

Definition checkbox_presses (evs : list Event) : nat :=
  length (List.filter
            (λ ev, match ev with PressedCheckbox => true | _ => false end)
            evs).

(** ** Notions the statements below are written with *)

(** The world after a handler that opened the conversation [target] (an
    object). *)
Definition opened (target : JsVal) (w : World) : World :=
  mkWorld (with_activeTab (JStr "memory")
             (with_activeConversation target (app w)))
          (storage w)
          (journal w ++ [Call_setActiveConversation target;
                         Call_setActiveTab (JStr "memory")])
          (functions w).

(** The world after a handler that switched to [tab]. *)
Definition switched (tab : JsVal) (w : World) : World :=
  mkWorld (with_activeTab (useState_update w tab (activeTab (app w)))
             (with_activeConversation JNull (app w)))
          (storage w)
          (journal w ++ [Call_setActiveConversation JNull;
                         Call_setActiveTab tab])
          (functions w).

(** The identifier a value names, when it names one of the four tabs. *)
Definition enumerated_tab (v : JsVal) : option Tab :=
  match v with
  | JStr s =>
      if String.eqb s "home" then Some home
      else if String.eqb s "upload" then Some upload
      else if String.eqb s "highlights" then Some highlights
      else if String.eqb s "memory" then Some memory
      else None
  | _ => None
  end.



Definition is_conversation_screen (scr : Screen) : bool :=
  match scr with
  | ConversationScreen _ _ _ _ _ | RetroConversationScreen _ _ _ _ _ => true
  | _ => false
  end.

(** The conversation screen of a theme, with its props read off the
    target. *)
Definition conversation_screen (retro : bool) (c : JsVal) : Screen :=
  if retro
  then RetroConversationScreen
         (Js.get c "name") (Js.get c "avatarUrl") (Js.get c "headline")
         (Js.get c "highlightTimestamp") (Js.get c "highlightIndex")
  else ConversationScreen
         (Js.get c "name") (Js.get c "avatarUrl") (Js.get c "headline")
         (Js.get c "highlightTimestamp") (Js.get c "highlightIndex").

(** The screen of a tab in a theme. *)
Definition tab_screen (retro : bool) (t : Tab) : Screen :=
  match t with
  | home => if retro then RetroHomeScreen else HomeScreen
  | upload => if retro then RetroUploadScreen else UploadScreen
  | highlights => if retro then RetroHighlightsScreen else HighlightsScreen
  | memory => if retro then RetroPeopleScreen else PeopleScreen
  end.

(** An event that is not a call of [onNavigateTab] with a truthy value
    other than the four identifiers. *)
Definition navigates_by_id (ev : Event) : bool :=
  match ev with
  | NavigateTab tab =>
      negb (Js.truthy tab) || bool_decide (is_Some (enumerated_tab tab))
  | _ => true
  end.

(** What a session driven through the controls keeps true, [st] being the
    storage the application was launched with, [ticks] the number of
    presses of the checkbox so far and [pending] the number of writes in
    flight: until the mount effect has run nothing is accepted, no write is
    in flight and the storage is as at launch; until the agreement is
    accepted the navigation cells are as initialized; and the box is not
    ticked, no write is in flight and the agreement is not accepted (unless
    the sentinel was there at launch) without the checkbox having been
    pressed. *)
Definition gate_invariant
    (st : Storage) (ticks pending : nat) (w : World) : Prop :=
  (isCheckingAgreement (app w) = true →
   hasAcceptedAgreement (app w) = false
   ∧ pending = 0
   ∧ items (storage w) = items st)
  ∧ (hasAcceptedAgreement (app w) = false →
     activeTab (app w) = JStr "home"
     ∧ activeConversation (app w) = JNull
     ∧ isRetroTheme (app w) = false)
  ∧ (agreementChecked (app w) = true → 0 < ticks)
  ∧ (0 < pending → 0 < ticks)
  ∧ (hasAcceptedAgreement (app w) = true →
     0 < ticks ∨ items st !! AGREEMENT_STORAGE_KEY = Some "true").

(** * Properties *)

(** ** What each handler does to the world *)

Ltac run_handler :=
  cbv [mbind M_bind bind mret M_ret ret throw try_catch try_catch_finally
       record modify_app update_activeTab update_activeConversation
       console_warn
       setActiveTab setActiveConversation setHasAcceptedAgreement
       setIsCheckingAgreement setAgreementChecked_not setIsRetroTheme_not
       AsyncStorage.getItem AsyncStorage.read
       AsyncStorage.setItem AsyncStorage.write];
  simpl.

Ltac flatten_journal := rewrite <- ?app_assoc; simpl.

Lemma handleNavigateTab_eq tab w :
  handleNavigateTab tab w =
  if Js.truthy tab then (Normal (), switched tab w) else (Normal (), w).
Proof.
  unfold handleNavigateTab, switched.
  destruct (Js.truthy tab); simpl; [|done].
  run_handler. by flatten_journal.
Qed.

Lemma onPressNavItem_eq t w :
  onPressNavItem t w = (Normal (), switched (JStr t) w).
Proof. unfold onPressNavItem, switched. run_handler. by flatten_journal. Qed.

Lemma onBack_eq w :
  onBack w =
  (Normal (),
   mkWorld (with_activeConversation JNull (app w)) (storage w)
           (journal w ++ [Call_setActiveConversation JNull]) (functions w)).
Proof. reflexivity. Qed.

Lemma handleToggleTheme_eq w :
  handleToggleTheme w =
  (Normal (),
   mkWorld (with_isRetroTheme (negb (isRetroTheme (app w))) (app w))
           (storage w) (journal w ++ [Call_setIsRetroTheme]) (functions w)).
Proof. reflexivity. Qed.

Lemma onPressCheckbox_eq w :
  onPressCheckbox w =
  (Normal (),
   mkWorld (with_agreementChecked (negb (agreementChecked (app w))) (app w))
           (storage w) (journal w ++ [Call_setAgreementChecked]) (functions w)).
Proof. reflexivity. Qed.

(** A bare string payload: wrapped as [{ name: payload }], so the other four
    fields are [undefined]. *)
Lemma handleOpenConversation_string s w :
  handleOpenConversation (JStr s) w =
  if String.eqb s ""
  then (Normal (), w)
  else (Normal (),
        opened (conversation_target (JStr s) JUndefined JUndefined
                                    JUndefined JUndefined) w).
Proof.
  unfold handleOpenConversation, opened.
  destruct s as [|a s]; [done|]. simpl.
  unfold destructure_target, Js.get.
  rewrite lookup_singleton_eq, !lookup_singleton_ne by done.
  run_handler. by flatten_journal.
Qed.

(** An object payload: accepted exactly when its [name] is truthy. *)
Lemma handleOpenConversation_object props w :
  handleOpenConversation (JObj props) w =
  if Js.truthy (Js.get (JObj props) "name")
  then (Normal (),
        opened (conversation_target
                  (Js.get (JObj props) "name")
                  (Js.get (JObj props) "highlightTimestamp")
                  (Js.get (JObj props) "highlightIndex")
                  (Js.get (JObj props) "avatarUrl")
                  (Js.get (JObj props) "headline")) w)
  else (Normal (), w).
Proof.
  unfold handleOpenConversation, opened. simpl.
  destruct (Js.truthy (default JUndefined (props !! "name"))) eqn:Hn;
    run_handler; rewrite Hn; simpl; [|done].
  by flatten_journal.
Qed.

(** Any other payload is dropped by one of the first two guards. *)
Lemma handleOpenConversation_other payload w :
  (∀ s, payload ≠ JStr s) → (∀ props, payload ≠ JObj props) →
  handleOpenConversation payload w = (Normal (), w).
Proof.
  intros Hs Ho. unfold handleOpenConversation.
  destruct payload as [| |b|x|n|s|d|props|props]; simpl; try done.
  - by destruct b.
  - by destruct (negb _).
  - by destruct (negb _).
  - by destruct (Hs s).
  - by destruct (Ho props).
Qed.

(** The three ways the mount effect can go. *)
Lemma checkAgreementStatus_rejected e w :
  getItemError (storage w) = Some e →
  checkAgreementStatus w =
  (Normal (),
   mkWorld (with_isCheckingAgreement false (app w)) (storage w)
           (journal w
            ++ [Call_getItem AGREEMENT_STORAGE_KEY;
                Call_console_warn "Failed to read agreement preference" e;
                Call_setIsCheckingAgreement false]) (functions w)).
Proof.
  intros He. unfold checkAgreementStatus. run_handler. rewrite He. simpl.
  by flatten_journal.
Qed.

Lemma checkAgreementStatus_sentinel w :
  getItemError (storage w) = None →
  items (storage w) !! AGREEMENT_STORAGE_KEY = Some "true" →
  checkAgreementStatus w =
  (Normal (),
   mkWorld (with_isCheckingAgreement false
              (with_hasAcceptedAgreement true (app w)))
           (storage w)
           (journal w
            ++ [Call_getItem AGREEMENT_STORAGE_KEY;
                Call_setHasAcceptedAgreement true;
                Call_setIsCheckingAgreement false]) (functions w)).
Proof.
  intros He Hv. unfold checkAgreementStatus. run_handler.
  rewrite He, Hv. simpl. by flatten_journal.
Qed.

Lemma checkAgreementStatus_other w :
  getItemError (storage w) = None →
  items (storage w) !! AGREEMENT_STORAGE_KEY ≠ Some "true" →
  checkAgreementStatus w =
  (Normal (),
   mkWorld (with_isCheckingAgreement false (app w)) (storage w)
           (journal w
            ++ [Call_getItem AGREEMENT_STORAGE_KEY;
                Call_setIsCheckingAgreement false]) (functions w)).
Proof.
  intros He Hv. unfold checkAgreementStatus. run_handler. rewrite He.
  destruct (items (storage w) !! AGREEMENT_STORAGE_KEY) as [v|] eqn:Hi; simpl.
  - destruct (String.eqb v "true") eqn:Hs.
    + apply String.eqb_eq in Hs. by subst v.
    + simpl. by flatten_journal.
  - by flatten_journal.
Qed.

(** The two ways accepting can go. *)
Lemma handleAcceptAgreement_written w :
  setItemError (storage w) = None →
  handleAcceptAgreement w =
  (Normal (),
   mkWorld (with_hasAcceptedAgreement true (app w))
           (mkStorage (<[AGREEMENT_STORAGE_KEY := "true"]> (items (storage w)))
                      (getItemError (storage w)) None)
           (journal w
            ++ [Call_setItem AGREEMENT_STORAGE_KEY "true";
                Call_setHasAcceptedAgreement true]) (functions w)).
Proof.
  intros He. unfold handleAcceptAgreement. run_handler. rewrite He. simpl.
  by flatten_journal.
Qed.

Lemma handleAcceptAgreement_rejected e w :
  setItemError (storage w) = Some e →
  handleAcceptAgreement w =
  (Normal (),
   mkWorld (app w) (storage w)
           (journal w
            ++ [Call_setItem AGREEMENT_STORAGE_KEY "true";
                Call_console_warn "Failed to save agreement acceptance" e]) (functions w)).
Proof.
  intros He. unfold handleAcceptAgreement. run_handler. rewrite He. simpl.
  by flatten_journal.
Qed.

(** The two halves of accepting, and that run one after the other they are
    the whole handler. *)
Lemma handleAcceptAgreement_issue_eq w :
  handleAcceptAgreement_issue w =
  (Normal (),
   mkWorld (app w) (storage w)
           (journal w ++ [Call_setItem AGREEMENT_STORAGE_KEY "true"])
           (functions w)).
Proof. reflexivity. Qed.

Lemma handleAcceptAgreement_resume_written w :
  setItemError (storage w) = None →
  handleAcceptAgreement_resume w =
  (Normal (),
   mkWorld (with_hasAcceptedAgreement true (app w))
           (mkStorage (<[AGREEMENT_STORAGE_KEY := "true"]> (items (storage w)))
                      (getItemError (storage w)) None)
           (journal w ++ [Call_setHasAcceptedAgreement true])
           (functions w)).
Proof.
  intros He. unfold handleAcceptAgreement_resume. run_handler.
  by rewrite He.
Qed.

Lemma handleAcceptAgreement_resume_rejected e w :
  setItemError (storage w) = Some e →
  handleAcceptAgreement_resume w =
  (Normal (),
   mkWorld (app w) (storage w)
           (journal w
            ++ [Call_console_warn "Failed to save agreement acceptance" e])
           (functions w)).
Proof.
  intros He. unfold handleAcceptAgreement_resume. run_handler.
  by rewrite He.
Qed.

Lemma handleAcceptAgreement_split w :
  handleAcceptAgreement w
  = handleAcceptAgreement_resume (exec handleAcceptAgreement_issue w).
Proof. reflexivity. Qed.

Lemma handleOpenConversation_cases payload w :
  handleOpenConversation payload w = (Normal (), w)
  ∨ ∃ target, Js.truthy target = true
              ∧ handleOpenConversation payload w = (Normal (), opened target w).
Proof.
  destruct payload as [| |b|x|n|s|d|props|props].
  1-5, 7, 9: left; apply handleOpenConversation_other; intros; discriminate.
  - rewrite handleOpenConversation_string.
    destruct (String.eqb s ""); [left; reflexivity|right].
    eexists; split; [|reflexivity]. reflexivity.
  - rewrite handleOpenConversation_object.
    destruct (Js.truthy _); [right|left; reflexivity].
    eexists; split; [|reflexivity]. reflexivity.
Qed.

Lemma checkAgreementStatus_cases w :
  (∃ e, getItemError (storage w) = Some e)
  ∨ (getItemError (storage w) = None
     ∧ items (storage w) !! AGREEMENT_STORAGE_KEY = Some "true")
  ∨ (getItemError (storage w) = None
     ∧ items (storage w) !! AGREEMENT_STORAGE_KEY ≠ Some "true").
Proof.
  destruct (getItemError (storage w)) as [e|]; [left; by eexists|right].
  destruct (decide (items (storage w) !! AGREEMENT_STORAGE_KEY = Some "true"));
    [by left|by right].
Qed.

(** No handler lets an exception escape. *)
Lemma dispatch_completes ev w : completion (dispatch ev) w = Normal ().
Proof.
  unfold completion. destruct ev as [| | |payload|tab| | |t|g s| | |fn]; simpl;
    try reflexivity.
  - destruct (checkAgreementStatus_cases w) as [[e He]|[[He Hv]|[He Hv]]].
    + by rewrite (checkAgreementStatus_rejected e).
    + by rewrite checkAgreementStatus_sentinel.
    + by rewrite checkAgreementStatus_other.
  - destruct (setItemError (storage w)) as [e|] eqn:He.
    + by rewrite (handleAcceptAgreement_rejected e).
    + by rewrite handleAcceptAgreement_written.
  - destruct (handleOpenConversation_cases payload w) as [->|(tg & _ & ->)];
      done.
  - rewrite handleNavigateTab_eq. by destruct (Js.truthy tab).
  - destruct (setItemError (storage w)) as [e|] eqn:He.
    + by rewrite (handleAcceptAgreement_resume_rejected e).
    + by rewrite handleAcceptAgreement_resume_written.
Qed.

Lemma enumerated_tab_id t : enumerated_tab (JStr (tab_id t)) = Some t.
Proof. by destruct t. Qed.

Lemma enumerated_tab_Some v t : enumerated_tab v = Some t → v = JStr (tab_id t).
Proof.
  destruct v as [| |b|x|n|s|d|props|props]; try discriminate.
  unfold enumerated_tab.
  destruct (String.eqb_spec s "home") as [->|_]; [by intros [= <-]|].
  destruct (String.eqb_spec s "upload") as [->|_]; [by intros [= <-]|].
  destruct (String.eqb_spec s "highlights") as [->|_]; [by intros [= <-]|].
  destruct (String.eqb_spec s "memory") as [->|_]; [by intros [= <-]|].
  discriminate.
Qed.

(** ** navigateTab *)

(** C3, as the code has it: [handleNavigateTab] never throws; a falsy [tab]
    leaves the whole world as it was; every truthy [tab], one of the four
    identifiers or not, first clears [activeConversation] and then passes
    [tab] to [setActiveTab], touching nothing else: [activeTab] becomes
    [tab] itself unless [tab] is a function, which the setter takes for an
    updater, so that [activeTab] becomes what the function returns for the
    previous [activeTab]; and each of the four identifiers is truthy. *)
Theorem handleNavigateTab_guard (tab : JsVal) (w : World) :
  completion (handleNavigateTab tab) w = Normal ()
  ∧ (if Js.truthy tab
     then activeConversation (app (exec (handleNavigateTab tab) w)) = JNull
          ∧ activeTab (app (exec (handleNavigateTab tab) w))
            = match tab with
              | JFun _ => functions w tab (activeTab (app w))
              | _ => tab
              end
          ∧ hasAcceptedAgreement (app (exec (handleNavigateTab tab) w))
            = hasAcceptedAgreement (app w)
          ∧ isCheckingAgreement (app (exec (handleNavigateTab tab) w))
            = isCheckingAgreement (app w)
          ∧ agreementChecked (app (exec (handleNavigateTab tab) w))
            = agreementChecked (app w)
          ∧ isRetroTheme (app (exec (handleNavigateTab tab) w))
            = isRetroTheme (app w)
          ∧ storage (exec (handleNavigateTab tab) w) = storage w
          ∧ journal (exec (handleNavigateTab tab) w)
            = journal w ++ [Call_setActiveConversation JNull;
                            Call_setActiveTab tab]
          ∧ functions (exec (handleNavigateTab tab) w) = functions w
     else exec (handleNavigateTab tab) w = w)
  ∧ (∀ t : Tab, Js.truthy (JStr (tab_id t)) = true).
Proof.
  unfold completion, exec. rewrite handleNavigateTab_eq.
  destruct (Js.truthy tab); simpl; (split; [done|split; [|by intros []]]);
    [by repeat split|done].
Qed.

(** C3 as the spec words it fails: ["settings"] is none of the four
    identifiers, yet from a world with Alex's conversation open on the
    memory tab, [navigateTab("settings")] closes the conversation and
    stores ["settings"] in [activeTab]. *)
Lemma handleNavigateTab_unrecognized_not_noop :
  enumerated_tab (JStr "settings") = None
  ∧ activeTab (app (run [OpenConversation (JStr "Alex")] (boot (healthy ∅))))
    = JStr "memory"
  ∧ Js.truthy (activeConversation
                 (app (run [OpenConversation (JStr "Alex")]
                           (boot (healthy ∅))))) = true
  ∧ activeTab (app (exec (handleNavigateTab (JStr "settings"))
                         (run [OpenConversation (JStr "Alex")]
                              (boot (healthy ∅)))))
    = JStr "settings"
  ∧ activeConversation
      (app (exec (handleNavigateTab (JStr "settings"))
                 (run [OpenConversation (JStr "Alex")] (boot (healthy ∅)))))
    = JNull.
Proof. repeat split. Qed.

(** ** toggleTheme *)

(** C8: [handleToggleTheme] flips [isRetroTheme] and nothing else of the
    component state or the storage, in every world; toggling twice gives
    back the component state one started from, theme flag included. *)
Theorem handleToggleTheme_frame (w : World) :
  completion handleToggleTheme w = Normal ()
  ∧ isRetroTheme (app (exec handleToggleTheme w)) = negb (isRetroTheme (app w))
  ∧ activeTab (app (exec handleToggleTheme w)) = activeTab (app w)
  ∧ activeConversation (app (exec handleToggleTheme w))
    = activeConversation (app w)
  ∧ hasAcceptedAgreement (app (exec handleToggleTheme w))
    = hasAcceptedAgreement (app w)
  ∧ isCheckingAgreement (app (exec handleToggleTheme w))
    = isCheckingAgreement (app w)
  ∧ agreementChecked (app (exec handleToggleTheme w))
    = agreementChecked (app w)
  ∧ storage (exec handleToggleTheme w) = storage w
  ∧ app (exec handleToggleTheme (exec handleToggleTheme w)) = app w.
Proof.
  unfold completion, exec. rewrite !handleToggleTheme_eq. simpl.
  repeat split. destruct w as [[tab conv acc chk tick retro] st j fns]. simpl.
  unfold with_isRetroTheme. simpl. by rewrite negb_involutive.
Qed.

(** ** The agreement gate *)

(** What [await AsyncStorage.getItem(key)] gives is the sentinel exactly when
    the read does not reject and the item is the string ["true"]. *)
Lemma getItem_sentinel key w :
  completion (AsyncStorage.getItem key) w = Normal (JStr "true")
  ↔ getItemError (storage w) = None ∧ items (storage w) !! key = Some "true".
Proof.
  unfold completion. run_handler.
  destruct (getItemError (storage w)) as [e|]; simpl.
  - split; [discriminate|intros [? _]; discriminate].
  - destruct (items (storage w) !! key) as [v|]; simpl.
    + split; [intros [= ->]; by split|intros [_ [= ->]]; reflexivity].
    + split; [discriminate|intros [_ ?]; discriminate].
Qed.

(** C2: from any world in which the agreement is not yet accepted,
    [checkAgreementStatus] leaves [hasAcceptedAgreement] true exactly when
    the value it read under [AGREEMENT_STORAGE_KEY] is the string ["true"];
    after any other read (no item, another string, a rejection) the flag is
    still false and [App] returns the agreement form. *)
Theorem checkAgreementStatus_fail_closed (w : World) :
  hasAcceptedAgreement (app w) = false →
  (hasAcceptedAgreement (app (exec checkAgreementStatus w)) = true
   ↔ completion (AsyncStorage.getItem AGREEMENT_STORAGE_KEY) w
     = Normal (JStr "true"))
  ∧ (completion (AsyncStorage.getItem AGREEMENT_STORAGE_KEY) w
     ≠ Normal (JStr "true") →
     hasAcceptedAgreement (app (exec checkAgreementStatus w)) = false
     ∧ render (app (exec checkAgreementStatus w))
       = AgreementView (agreementChecked (app w))).
Proof.
  intros Hacc. rewrite getItem_sentinel. unfold exec.
  destruct (checkAgreementStatus_cases w) as [[e He]|[[He Hv]|[He Hv]]].
  - rewrite (checkAgreementStatus_rejected e w He). simpl.
    unfold render. simpl. rewrite Hacc, He. simpl.
    split; [split; [discriminate|intros [? _]; discriminate]|done].
  - rewrite (checkAgreementStatus_sentinel w He Hv). simpl.
    split; [done|]. intros Hn. by destruct Hn.
  - rewrite (checkAgreementStatus_other w He Hv). simpl.
    unfold render. simpl. rewrite Hacc. simpl.
    split; [split; [discriminate|intros [_ ?]; contradiction]|done].
Qed.

Lemma checkAgreementStatus_fail_closed_witness :
  hasAcceptedAgreement (app (boot (healthy {[ AGREEMENT_STORAGE_KEY := "1" ]})))
  = false
  ∧ hasAcceptedAgreement
      (app (exec checkAgreementStatus
                 (boot (healthy {[ AGREEMENT_STORAGE_KEY := "1" ]}))))
    = false
  ∧ render
      (app (exec checkAgreementStatus
                 (boot (healthy {[ AGREEMENT_STORAGE_KEY := "1" ]}))))
    = AgreementView false.
Proof.
  split; [reflexivity|].
  apply (checkAgreementStatus_fail_closed
           (boot (healthy {[ AGREEMENT_STORAGE_KEY := "1" ]})) eq_refl).
  intros Hread. vm_compute in Hread. discriminate Hread.
Defined.

(** C7: [checkAgreementStatus] always completes normally, with
    [isCheckingAgreement] false; of the calls it adds to the journal the
    first is the storage read, the last is [setIsCheckingAgreement(false)],
    and no call in between touches [isCheckingAgreement]. *)
Theorem checkAgreementStatus_ends_loading (w : World) :
  completion checkAgreementStatus w = Normal ()
  ∧ isCheckingAgreement (app (exec checkAgreementStatus w)) = false
  ∧ ∃ between : list Call,
      journal (exec checkAgreementStatus w)
      = journal w
        ++ Call_getItem AGREEMENT_STORAGE_KEY
           :: between ++ [Call_setIsCheckingAgreement false]
      ∧ ∀ b, Call_setIsCheckingAgreement b ∉ between.
Proof.
  unfold completion, exec.
  destruct (checkAgreementStatus_cases w) as [[e He]|[[He Hv]|[He Hv]]].
  - rewrite (checkAgreementStatus_rejected e w He). simpl.
    do 2 (split; [done|]).
    exists [Call_console_warn "Failed to read agreement preference" e].
    split; [done|]. intros b Hin.
    apply list_elem_of_singleton in Hin. discriminate.
  - rewrite (checkAgreementStatus_sentinel w He Hv). simpl.
    do 2 (split; [done|]).
    exists [Call_setHasAcceptedAgreement true].
    split; [done|]. intros b Hin.
    apply list_elem_of_singleton in Hin. discriminate.
  - rewrite (checkAgreementStatus_other w He Hv). simpl.
    do 2 (split; [done|]).
    exists []. split; [done|]. intros b. apply not_elem_of_nil.
Qed.

(** One step either leaves the flag and the stored items alone, or ends
    with the flag set and the sentinel stored. *)
Lemma step_acceptance w ev :
  (hasAcceptedAgreement (app (step w ev)) = hasAcceptedAgreement (app w)
   ∧ items (storage (step w ev)) = items (storage w))
  ∨ (hasAcceptedAgreement (app (step w ev)) = true
     ∧ items (storage (step w ev)) !! AGREEMENT_STORAGE_KEY = Some "true").
Proof.
  unfold step, exec.
  destruct ev as [| | |payload|tab| | |t|g s| | |fn]; simpl;
    try (left; split; reflexivity).
  - destruct (checkAgreementStatus_cases w) as [[e He]|[[He Hv]|[He Hv]]].
    + rewrite (checkAgreementStatus_rejected e w He). by left.
    + rewrite (checkAgreementStatus_sentinel w He Hv). by right.
    + rewrite (checkAgreementStatus_other w He Hv). by left.
  - destruct (setItemError (storage w)) as [e|] eqn:He.
    + rewrite (handleAcceptAgreement_rejected e w He). by left.
    + rewrite (handleAcceptAgreement_written w He). right. simpl.
      split; [done|]. apply lookup_insert_eq.
  - destruct (handleOpenConversation_cases payload w) as [->|(tg & _ & ->)];
      by left.
  - rewrite handleNavigateTab_eq. destruct (Js.truthy tab); by left.
  - destruct (setItemError (storage w)) as [e|] eqn:He.
    + rewrite (handleAcceptAgreement_resume_rejected e w He). by left.
    + rewrite (handleAcceptAgreement_resume_written w He). right. simpl.
      split; [done|]. apply lookup_insert_eq.
Qed.

Lemma run_snoc evs ev w : run (evs ++ [ev]) w = step (run evs w) ev.
Proof. unfold run. by rewrite foldl_snoc. Qed.

Lemma run_cons ev evs w : run (ev :: evs) w = run evs (step w ev).
Proof. reflexivity. Qed.

(** Whenever the flag is set, the sentinel is in the storage. *)
Lemma acceptance_persisted evs st :
  hasAcceptedAgreement (app (run evs (boot st))) = true →
  items (storage (run evs (boot st))) !! AGREEMENT_STORAGE_KEY = Some "true".
Proof.
  induction evs as [|ev evs IH] using rev_ind; [discriminate|].
  rewrite run_snoc.
  destruct (step_acceptance (run evs (boot st)) ev) as [[-> ->]|[_ ?]]; done.
Qed.

(** C4: [handleAcceptAgreement] never throws, and after it
    [hasAcceptedAgreement] is true exactly when the write went through or
    the flag was true already.  When the write of ["true"] under
    [AGREEMENT_STORAGE_KEY] goes through, the item is stored and then
    [setHasAcceptedAgreement(true)] is called: the flag is true and every
    other cell is as it was.  When the write rejects, the error is logged
    and neither the component state nor the storage changes.  Hence, in
    every session started from the initial state, [hasAcceptedAgreement] is
    only ever true while the storage holds the sentinel. *)
Theorem handleAcceptAgreement_atomic :
  (∀ w : World,
     completion handleAcceptAgreement w = Normal ()
     ∧ (hasAcceptedAgreement (app (exec handleAcceptAgreement w)) = true
        ↔ setItemError (storage w) = None
          ∨ hasAcceptedAgreement (app w) = true)
     ∧ match setItemError (storage w) with
       | None =>
           hasAcceptedAgreement (app (exec handleAcceptAgreement w)) = true
           ∧ activeTab (app (exec handleAcceptAgreement w))
             = activeTab (app w)
           ∧ activeConversation (app (exec handleAcceptAgreement w))
             = activeConversation (app w)
           ∧ isCheckingAgreement (app (exec handleAcceptAgreement w))
             = isCheckingAgreement (app w)
           ∧ agreementChecked (app (exec handleAcceptAgreement w))
             = agreementChecked (app w)
           ∧ isRetroTheme (app (exec handleAcceptAgreement w))
             = isRetroTheme (app w)
           ∧ items (storage (exec handleAcceptAgreement w))
             = <[AGREEMENT_STORAGE_KEY := "true"]> (items (storage w))
           ∧ items (storage (exec handleAcceptAgreement w))
             !! AGREEMENT_STORAGE_KEY = Some "true"
           ∧ journal (exec handleAcceptAgreement w)
             = journal w ++ [Call_setItem AGREEMENT_STORAGE_KEY "true";
                             Call_setHasAcceptedAgreement true]
       | Some e =>
           app (exec handleAcceptAgreement w) = app w
           ∧ storage (exec handleAcceptAgreement w) = storage w
           ∧ journal (exec handleAcceptAgreement w)
             = journal w
               ++ [Call_setItem AGREEMENT_STORAGE_KEY "true";
                   Call_console_warn
                     "Failed to save agreement acceptance" e]
       end)
  ∧ (∀ (evs : list Event) (st : Storage),
       hasAcceptedAgreement (app (run evs (boot st))) = true →
       items (storage (run evs (boot st))) !! AGREEMENT_STORAGE_KEY
       = Some "true").
Proof.
  split; [|apply acceptance_persisted].
  intros w. unfold completion, exec.
  destruct (setItemError (storage w)) as [e|] eqn:He.
  - rewrite (handleAcceptAgreement_rejected e w He). simpl.
    split; [done|]. split; [|done].
    split; [by right|]. by intros [?|?].
  - rewrite (handleAcceptAgreement_written w He). simpl.
    split; [done|]. split; [split; [by left|done]|].
    repeat split. apply lookup_insert_eq.
Qed.

(** C9: from any world in which [hasAcceptedAgreement] is true, no sequence
    of events (the mount effect run again, presses, calls from screens with
    any arguments, storage faults) brings it back to false. *)
Theorem acceptance_irreversible (evs : list Event) (w : World) :
  hasAcceptedAgreement (app w) = true →
  hasAcceptedAgreement (app (run evs w)) = true.
Proof.
  revert w. induction evs as [|ev evs IH]; intros w Hacc; [done|].
  rewrite run_cons. apply IH.
  destruct (step_acceptance w ev) as [[-> _]|[? _]]; done.
Qed.

Lemma acceptance_irreversible_witness :
  hasAcceptedAgreement
    (app (run [Mounted]
              (boot (healthy {[ AGREEMENT_STORAGE_KEY := "true" ]}))))
  = true
  ∧ hasAcceptedAgreement
      (app (run [StorageFaults (Some (JStr "EIO")) (Some (JStr "EIO"));
                 Mounted; PressedAgree; OpenConversation (JStr "Alex");
                 PressedThemeToggle; PressedBack;
                 NavigateTab (JStr "home"); PressedCheckbox]
                (run [Mounted]
                     (boot (healthy {[ AGREEMENT_STORAGE_KEY := "true" ]})))))
    = true.
Proof.
  split; [reflexivity|].
  apply acceptance_irreversible. reflexivity.
Defined.

(** ** openConversation *)


Lemma get_conversation_target_name n t i a h :
  Js.get (conversation_target n t i a h) "name" = n.
Proof. unfold Js.get, conversation_target. by rewrite lookup_insert_eq. Qed.






(** C10: on an object payload the guard looks at the truthiness of [name]
    and at nothing else.  With a truthy [name] of any type the conversation
    is opened under that very value and [activeTab] becomes ["memory"];
    with a falsy one (no [name] at all, the empty string, zero, [null])
    the world stays as it was.  In particular [{name: 5}] is accepted. *)
Theorem handleOpenConversation_name_truthiness
    (props : gmap string JsVal) (w : World) :
  completion (handleOpenConversation (JObj props)) w = Normal ()
  ∧ (if Js.truthy (Js.get (JObj props) "name")
     then activeTab (app (exec (handleOpenConversation (JObj props)) w))
          = JStr "memory"
          ∧ Js.get (activeConversation
                      (app (exec (handleOpenConversation (JObj props)) w)))
                   "name"
            = Js.get (JObj props) "name"
          ∧ activeConversation
              (app (exec (handleOpenConversation (JObj props)) w))
            = conversation_target
                (Js.get (JObj props) "name")
                (Js.get (JObj props) "highlightTimestamp")
                (Js.get (JObj props) "highlightIndex")
                (Js.get (JObj props) "avatarUrl")
                (Js.get (JObj props) "headline")
     else exec (handleOpenConversation (JObj props)) w = w)
  ∧ (props !! "name" = None → Js.truthy (Js.get (JObj props) "name") = false)
  ∧ Js.truthy (JStr "") = false
  ∧ Js.truthy (JNum 0) = false
  ∧ Js.truthy JNull = false
  ∧ Js.truthy (JNum 5) = true
  ∧ Js.get (activeConversation
              (app (exec (handleOpenConversation
                            (JObj {[ "name" := JNum 5 ]})) w)))
           "name"
    = JNum 5.
Proof.
  unfold completion, exec. rewrite !handleOpenConversation_object.
  split; [by destruct (Js.truthy _)|].
  split.
  { destruct (Js.truthy _); [|done]. simpl.
    split; [done|]. split; [|done].
    by rewrite lookup_insert_eq. }
  split; [intros Hn; unfold Js.get; by rewrite Hn|].
  repeat split.
Qed.

(** ** The rendering rule *)

Lemma render_content_open s :
  Js.truthy (activeConversation s) = true →
  render_content s
  = [conversation_screen (isRetroTheme s) (activeConversation s)].
Proof.
  intros Hc. unfold render_content, conversation_screen. rewrite Hc.
  by destruct (isRetroTheme s).
Qed.

Lemma render_content_closed s :
  Js.truthy (activeConversation s) = false →
  render_content s
  = match enumerated_tab (activeTab s) with
    | Some t => [tab_screen (isRetroTheme s) t]
    | None => []
    end.
Proof.
  intros Hc. unfold render_content. rewrite Hc.
  destruct (activeTab s) as [| |b|x|n|id|d|props|props]; try reflexivity.
  unfold Js.strict_eq_str, enumerated_tab.
  destruct (String.eqb_spec id "home") as [->|_]; [reflexivity|].
  destruct (String.eqb_spec id "upload") as [->|_]; [reflexivity|].
  destruct (String.eqb_spec id "highlights") as [->|_]; [reflexivity|].
  destruct (String.eqb_spec id "memory") as [->|_]; reflexivity.
Qed.

Lemma tab_screen_not_conversation retro t :
  is_conversation_screen (tab_screen retro t) = false.
Proof. by destruct retro, t. Qed.

Lemma conversation_screen_is_conversation retro c :
  is_conversation_screen (conversation_screen retro c) = true.
Proof. by destruct retro. Qed.

(** In any state whatever, a screen that is mounted is a conversation screen
    exactly when a conversation is open; so all of them are of one kind. *)
Lemma render_content_kind s a :
  a ∈ render_content s →
  is_conversation_screen a = Js.truthy (activeConversation s).
Proof.
  destruct (Js.truthy (activeConversation s)) eqn:Hc.
  - rewrite (render_content_open s Hc).
    intros ->%list_elem_of_singleton.
    apply conversation_screen_is_conversation.
  - rewrite (render_content_closed s Hc).
    destruct (enumerated_tab (activeTab s)) as [t|].
    + intros ->%list_elem_of_singleton. apply tab_screen_not_conversation.
    + by intros ?%not_elem_of_nil.
Qed.

Lemma render_content_one_kind s a b :
  a ∈ render_content s → b ∈ render_content s →
  is_conversation_screen a = is_conversation_screen b.
Proof.
  intros Ha Hb.
  by rewrite (render_content_kind s a Ha), (render_content_kind s b Hb).
Qed.

(** What one step can do to [activeTab]. *)
Lemma step_activeTab w ev :
  activeTab (app (step w ev)) = activeTab (app w)
  ∨ (∃ t, activeTab (app (step w ev)) = JStr (tab_id t))
  ∨ (∃ tab, ev = NavigateTab tab ∧ Js.truthy tab = true
            ∧ activeTab (app (step w ev))
              = useState_update w tab (activeTab (app w))).
Proof.
  unfold step, exec.
  destruct ev as [| | |payload|tab| | |t|g s| | |fn]; simpl;
    try (left; reflexivity).
  - destruct (checkAgreementStatus_cases w) as [[e He]|[[He Hv]|[He Hv]]].
    + rewrite (checkAgreementStatus_rejected e w He). by left.
    + rewrite (checkAgreementStatus_sentinel w He Hv). by left.
    + rewrite (checkAgreementStatus_other w He Hv). by left.
  - destruct (setItemError (storage w)) as [e|] eqn:He.
    + rewrite (handleAcceptAgreement_rejected e w He). by left.
    + rewrite (handleAcceptAgreement_written w He). by left.
  - destruct (handleOpenConversation_cases payload w) as [->|(tg & _ & ->)];
      [by left|].
    right; left. by exists memory.
  - rewrite handleNavigateTab_eq. destruct (Js.truthy tab) eqn:Ht; [|by left].
    right; right. by exists tab.
  - right; left. by exists t.
  - destruct (setItemError (storage w)) as [e|] eqn:He.
    + rewrite (handleAcceptAgreement_resume_rejected e w He). by left.
    + rewrite (handleAcceptAgreement_resume_written w He). by left.
Qed.

Lemma activeTab_enumerated evs st :
  forallb navigates_by_id evs = true →
  is_Some (enumerated_tab (activeTab (app (run evs (boot st))))).
Proof.
  induction evs as [|ev evs IH] using rev_ind; [by eexists|].
  rewrite forallb_app. simpl. rewrite andb_true_r.
  intros [Hevs Hev]%andb_true_iff. rewrite run_snoc.
  destruct (step_activeTab (run evs (boot st)) ev)
    as [->|[[t ->]|(tab & -> & Htab & ->)]].
  - by apply IH.
  - rewrite enumerated_tab_id. by eexists.
  - simpl in Hev. rewrite Htab in Hev. simpl in Hev.
    apply bool_decide_eq_true in Hev. destruct Hev as [t Ht].
    apply enumerated_tab_Some in Ht as ->. unfold useState_update.
    rewrite enumerated_tab_id. by eexists.
Qed.

(** C1, as the code has it: in every session started from the initial
    state (any events, with any arguments), the screens [App] mounts are
    never a conversation screen together with a tab screen: a mounted
    screen is a conversation screen exactly when a conversation is open.
    While
    [activeConversation] is truthy, the one screen mounted is the
    conversation screen of the theme.  While it is not, the one screen
    mounted is that of [activeTab] if [activeTab] is one of the four
    identifiers, and no screen at all is mounted otherwise; [activeTab] is
    one of the four identifiers throughout any session in which
    [onNavigateTab] only received falsy values or such identifiers. *)
Theorem render_mutually_exclusive (evs : list Event) (st : Storage) :
  (Js.truthy (activeConversation (app (run evs (boot st)))) = true →
   render_content (app (run evs (boot st)))
   = [conversation_screen (isRetroTheme (app (run evs (boot st))))
                          (activeConversation (app (run evs (boot st))))])
  ∧ (Js.truthy (activeConversation (app (run evs (boot st)))) = false →
     render_content (app (run evs (boot st)))
     = match enumerated_tab (activeTab (app (run evs (boot st)))) with
       | Some t => [tab_screen (isRetroTheme (app (run evs (boot st)))) t]
       | None => []
       end)
  ∧ (∀ a b : Screen,
       a ∈ render_content (app (run evs (boot st))) →
       b ∈ render_content (app (run evs (boot st))) →
       is_conversation_screen a = is_conversation_screen b)
  ∧ (∀ a : Screen,
       a ∈ render_content (app (run evs (boot st))) →
       is_conversation_screen a
       = Js.truthy (activeConversation (app (run evs (boot st)))))
  ∧ (forallb navigates_by_id evs = true →
     ∃ t : Tab, activeTab (app (run evs (boot st))) = JStr (tab_id t)).
Proof.
  split; [apply render_content_open|].
  split; [apply render_content_closed|].
  split; [apply render_content_one_kind|].
  split; [apply render_content_kind|].
  intros Hevs. destruct (activeTab_enumerated evs st Hevs) as [t Ht].
  exists t. by apply enumerated_tab_Some.
Qed.

(** C1 as the spec words it fails: from the initial state,
    [navigateTab("settings")] leaves no conversation open and [activeTab]
    naming none of the four tabs, and the rendering rule selects no screen
    at all, so not "exactly the screen of [activeTab]"; after an accepted
    boot, what [App] returns is the application with no screen in it. *)
Lemma render_unrecognized_tab_no_screen :
  enumerated_tab (JStr "settings") = None
  ∧ Js.truthy
      (activeConversation
         (app (run [NavigateTab (JStr "settings")] (boot (healthy ∅)))))
    = false
  ∧ activeTab (app (run [NavigateTab (JStr "settings")] (boot (healthy ∅))))
    = JStr "settings"
  ∧ render_content
      (app (run [NavigateTab (JStr "settings")] (boot (healthy ∅))))
    = []
  ∧ render
      (app (run [Mounted; NavigateTab (JStr "settings")]
                (boot (healthy {[ AGREEMENT_STORAGE_KEY := "true" ]}))))
    = MainView [] false.
Proof. repeat split. Qed.

(** ** Sessions of the spec, run *)

(** Before the mount effect has finished, the spinner. *)
Example first_render_is_loading st : render (app (boot st)) = LoadingView.
Proof. reflexivity. Qed.

(** First launch: nothing stored, so the agreement form; ticking the box
    and pressing the button stores ["true"] and shows the home tab with the
    theme button. *)
Example first_launch :
  render (app (run [Mounted] (boot (healthy ∅)))) = AgreementView false
  ∧ render (app (run [Mounted; PressedCheckbox; PressedAgree]
                     (boot (healthy ∅))))
    = MainView [HomeScreen] true
  ∧ items (storage (run [Mounted; PressedCheckbox; PressedAgree]
                        (boot (healthy ∅))))
    !! AGREEMENT_STORAGE_KEY
    = Some "true".
Proof. repeat split. Qed.

(** Second launch: the home tab at once. *)
Example second_launch :
  render (app (run [Mounted]
                   (boot (healthy {[ AGREEMENT_STORAGE_KEY := "true" ]}))))
  = MainView [HomeScreen] true.
Proof. reflexivity. Qed.

(** A read that rejects shows the agreement form even though the sentinel
    is stored; a write that rejects leaves the user on the form, and a
    second press once the storage works again gets through. *)
Example storage_failures :
  render (app (run [Mounted]
                   (boot (mkStorage {[ AGREEMENT_STORAGE_KEY := "true" ]}
                                    (Some (JStr "EIO")) None))))
  = AgreementView false
  ∧ render (app (run [Mounted; PressedCheckbox; PressedAgree]
                     (boot (mkStorage ∅ None (Some (JStr "EIO"))))))
    = AgreementView true
  ∧ render (app (run [Mounted; PressedCheckbox; PressedAgree;
                      StorageFaults None None; PressedAgree]
                     (boot (mkStorage ∅ None (Some (JStr "EIO"))))))
    = MainView [HomeScreen] true.
Proof. repeat split. Qed.

(** [openConversation("Jamie")] and [openConversation({name: "Jamie"})] do
    the same. *)
Example string_payload_is_name_object w :
  handleOpenConversation (JStr "Jamie") w
  = handleOpenConversation (JObj {[ "name" := JStr "Jamie" ]}) w.
Proof.
  by rewrite handleOpenConversation_string, handleOpenConversation_object.
Qed.

(** Opening a conversation from the highlights tab in the retro theme, then
    going back: the retro conversation screen, then the people list of the
    memory tab (not the highlights the request came from). *)
Example open_then_back :
  render (app (run [Mounted; PressedThemeToggle; PressedNavItem highlights;
                    OpenConversation
                      (JObj (<["name" := JStr "Alex"]>
                             {[ "highlightIndex" := JNum 2 ]}))]
                   (boot (healthy {[ AGREEMENT_STORAGE_KEY := "true" ]}))))
  = MainView [RetroConversationScreen (JStr "Alex") JUndefined JUndefined
                                      JUndefined (JNum 2)]
             false
  ∧ render (app (run [Mounted; PressedThemeToggle; PressedNavItem highlights;
                      OpenConversation
                        (JObj (<["name" := JStr "Alex"]>
                               {[ "highlightIndex" := JNum 2 ]}));
                      PressedBack]
                     (boot (healthy {[ AGREEMENT_STORAGE_KEY := "true" ]}))))
    = MainView [RetroPeopleScreen] false.
Proof. repeat split. Qed.

(** * Further properties of the handlers and of what [App] renders *)

(** Splits a step into the ways its handler can go, each with the world it
    ends in written out. *)
Ltac step_cases w ev :=
  unfold step, exec;
  destruct ev as [| | |?payload|?tab| | |?t|?onGet ?onSet| | |?fn]; simpl;
  [ destruct (checkAgreementStatus_cases w)
      as [[?e ?He]|[[?He ?Hv]|[?He ?Hv]]];
    [ rewrite (checkAgreementStatus_rejected _ w He)
    | rewrite (checkAgreementStatus_sentinel w He Hv)
    | rewrite (checkAgreementStatus_other w He Hv) ]
  | idtac
  | let He := fresh "He" in
    destruct (setItemError (storage w)) as [?e|] eqn:He;
    [ rewrite (handleAcceptAgreement_rejected _ w He)
    | rewrite (handleAcceptAgreement_written w He) ]
  | idtac
  | rewrite handleNavigateTab_eq; destruct (Js.truthy tab) eqn:?Htab
  | idtac | idtac | idtac | idtac | idtac
  | let He := fresh "He" in
    destruct (setItemError (storage w)) as [?e|] eqn:He;
    [ rewrite (handleAcceptAgreement_resume_rejected _ w He)
    | rewrite (handleAcceptAgreement_resume_written w He) ]
  | idtac ];
  simpl.

(** An accepted payload opens a five-field target whose name is truthy. *)
Lemma handleOpenConversation_target payload w :
  handleOpenConversation payload w = (Normal (), w)
  ∨ ∃ n t i a h,
      Js.truthy n = true
      ∧ handleOpenConversation payload w
        = (Normal (), opened (conversation_target n t i a h) w).
Proof.
  destruct payload as [| |b|x|k|s|d|props|props].
  1-5, 7, 9: left; apply handleOpenConversation_other; intros; discriminate.
  - rewrite handleOpenConversation_string.
    destruct (String.eqb s "") eqn:Hs; [left; reflexivity|right].
    exists (JStr s), JUndefined, JUndefined, JUndefined, JUndefined.
    split; [|reflexivity]. simpl. by rewrite Hs.
  - rewrite handleOpenConversation_object.
    destruct (Js.truthy _) eqn:Hn; [right|left; reflexivity].
    do 5 eexists. split; [exact Hn|reflexivity].
Qed.

(** What a step leaves alone. *)
Lemma step_isRetroTheme w ev :
  isRetroTheme (app (step w ev))
  = match ev with
    | PressedThemeToggle => negb (isRetroTheme (app w))
    | _ => isRetroTheme (app w)
    end.
Proof.
  step_cases w ev; try reflexivity.
  destruct (handleOpenConversation_cases payload w) as [->|(tg & _ & ->)];
    reflexivity.
Qed.

Lemma step_agreementChecked w ev :
  agreementChecked (app (step w ev))
  = match ev with
    | PressedCheckbox => negb (agreementChecked (app w))
    | _ => agreementChecked (app w)
    end.
Proof.
  step_cases w ev; try reflexivity.
  destruct (handleOpenConversation_cases payload w) as [->|(tg & _ & ->)];
    reflexivity.
Qed.

Lemma step_isCheckingAgreement w ev :
  isCheckingAgreement (app (step w ev))
  = match ev with
    | Mounted => false
    | _ => isCheckingAgreement (app w)
    end.
Proof.
  step_cases w ev; try reflexivity.
  destruct (handleOpenConversation_cases payload w) as [->|(tg & _ & ->)];
    reflexivity.
Qed.

Lemma step_items w ev :
  items (storage (step w ev)) = items (storage w)
  ∨ ((ev = PressedAgree ∨ ev = WriteSettled)
     ∧ setItemError (storage w) = None
     ∧ items (storage (step w ev))
       = <[AGREEMENT_STORAGE_KEY := "true"]> (items (storage w))).
Proof.
  step_cases w ev; try (left; reflexivity).
  - right. split; [by left|done].
  - destruct (handleOpenConversation_cases payload w) as [->|(tg & _ & ->)];
      by left.
  - right. split; [by right|done].
Qed.

(** ** Payload normalization *)

(** X1: a bare string payload and the object [{name: <that string>}] are
    handled identically, for every string (the empty one included) and in
    every world: same completion, same component state, same journal. *)
Theorem handleOpenConversation_string_as_object (s : string) (w : World) :
  handleOpenConversation (JStr s) w
  = handleOpenConversation (JObj {[ "name" := JStr s ]}) w.
Proof.
  rewrite handleOpenConversation_string, handleOpenConversation_object.
  unfold Js.get.
  rewrite lookup_singleton_eq, !lookup_singleton_ne by done.
  cbn [default from_option id Js.truthy].
  by destruct (String.eqb s "").
Qed.

(** ** Exceptions *)

(** X2: on arguments that are plain data (primitives, functions, and
    objects made of own data properties, which is what [JsVal] holds: no
    accessor, proxy or inherited property), no handler of [App] lets an
    exception escape: whatever the event, whichever such value a screen
    passes, and whether or not the storage rejects, the handler completes
    normally.  (A [name] getter that throws does make
    [handleOpenConversation] throw: the destructuring is not guarded.) *)
Theorem handlers_never_throw (ev : Event) (w : World) :
  completion (dispatch ev) w = Normal ().
Proof. apply dispatch_completes. Qed.

(** ** The navigation bar and [handleNavigateTab] *)

(** X3: pressing an item of the navigation bar does exactly what
    [handleNavigateTab] does with that item's identifier. *)
Theorem onPressNavItem_as_handleNavigateTab (t : Tab) (w : World) :
  onPressNavItem (tab_id t) w = handleNavigateTab (JStr (tab_id t)) w.
Proof.
  rewrite onPressNavItem_eq, handleNavigateTab_eq. by destruct t.
Qed.

(** ** Flags over a whole session *)

Lemma theme_presses_cons ev evs :
  theme_presses (ev :: evs)
  = match ev with
    | PressedThemeToggle => S (theme_presses evs)
    | _ => theme_presses evs
    end.
Proof. by destruct ev. Qed.

Lemma checkbox_presses_cons ev evs :
  checkbox_presses (ev :: evs)
  = match ev with
    | PressedCheckbox => S (checkbox_presses evs)
    | _ => checkbox_presses evs
    end.
Proof. by destruct ev. Qed.

Lemma xorb_negb_odd b n : xorb (negb b) (Nat.odd n) = xorb b (Nat.odd (S n)).
Proof. rewrite Nat.odd_succ, <- Nat.negb_odd. by destruct b, (Nat.odd n). Qed.

(** X4: over any sequence of events from any world, the theme flag ends up
    flipped exactly when the theme button was pressed an odd number of
    times, and the checkbox flag exactly when the checkbox was: no other
    handler touches either. *)
Theorem flags_follow_presses (evs : list Event) (w : World) :
  isRetroTheme (app (run evs w))
  = xorb (isRetroTheme (app w)) (Nat.odd (theme_presses evs))
  ∧ agreementChecked (app (run evs w))
    = xorb (agreementChecked (app w)) (Nat.odd (checkbox_presses evs)).
Proof.
  revert w. induction evs as [|ev evs IH]; intros w.
  - simpl. by rewrite !xorb_false_r.
  - rewrite run_cons. destruct (IH (step w ev)) as [-> ->].
    rewrite step_isRetroTheme, step_agreementChecked.
    rewrite theme_presses_cons, checkbox_presses_cons.
    destruct ev; rewrite ?xorb_negb_odd; by split.
Qed.

Lemma isCheckingAgreement_stays_false evs w :
  isCheckingAgreement (app w) = false →
  isCheckingAgreement (app (run evs w)) = false.
Proof.
  revert w. induction evs as [|ev evs IH]; intros w Hw; [done|].
  rewrite run_cons. apply IH. rewrite step_isCheckingAgreement.
  by destruct ev.
Qed.

(** X5: once the mount effect has run, whatever comes after it, the
    spinner is never shown again. *)
Theorem spinner_never_returns (evs : list Event) (st : Storage) :
  isCheckingAgreement (app (run (Mounted :: evs) (boot st))) = false
  ∧ render (app (run (Mounted :: evs) (boot st))) ≠ LoadingView.
Proof.
  assert (isCheckingAgreement (app (run (Mounted :: evs) (boot st))) = false)
    as Hc.
  { rewrite run_cons. apply isCheckingAgreement_stays_false.
    by rewrite step_isCheckingAgreement. }
  split; [exact Hc|]. unfold render. rewrite Hc.
  by destruct (negb _).
Qed.

(** ** The storage *)

(** X6: over any sequence of events from any world, every key of the
    storage holds what it held at the start, except that the agreement key
    may have come to hold ["true"]: the application writes no other key and
    no other value, and deletes nothing. *)
Theorem storage_only_gains_sentinel
    (evs : list Event) (w : World) (k : string) :
  items (storage (run evs w)) !! k = items (storage w) !! k
  ∨ (k = AGREEMENT_STORAGE_KEY
     ∧ items (storage (run evs w)) !! k = Some "true").
Proof.
  revert w. induction evs as [|ev evs IH]; intros w; [by left|].
  rewrite run_cons. destruct (IH (step w ev)) as [->|?]; [|by right].
  destruct (step_items w ev) as [->|(_ & _ & ->)]; [by left|].
  destruct (decide (k = AGREEMENT_STORAGE_KEY)) as [->|Hk].
  - right. split; [done|]. apply lookup_insert_eq.
  - left. by apply lookup_insert_ne.
Qed.

(** ** The open conversation *)

(** What every session keeps true of the conversation cell. *)
Lemma conversation_invariant evs st :
  activeConversation (app (run evs (boot st))) = JNull
  ∨ (activeTab (app (run evs (boot st))) = JStr "memory"
     ∧ ∃ n t i a h,
         Js.truthy n = true
         ∧ activeConversation (app (run evs (boot st)))
           = conversation_target n t i a h).
Proof.
  induction evs as [|ev evs IH] using rev_ind; [by left|].
  rewrite run_snoc. revert IH. generalize (run evs (boot st)). intros w IH.
  step_cases w ev; try exact IH; try (by left).
  destruct (handleOpenConversation_target payload w)
    as [->|(n & t & i & a & h & Hn & ->)]; [exact IH|].
  right. split; [reflexivity|]. by exists n, t, i, a, h.
Qed.


(** X8: in every session from the initial state, while a conversation is
    open [activeTab] is ["memory"], so the back button always lands on the
    people list of the memory tab, whichever tab the request came from. *)
Theorem back_lands_on_memory (evs : list Event) (st : Storage) :
  Js.truthy (activeConversation (app (run evs (boot st)))) = true →
  activeTab (app (run evs (boot st))) = JStr "memory"
  ∧ render_content (app (run (evs ++ [PressedBack]) (boot st)))
    = [tab_screen (isRetroTheme (app (run evs (boot st)))) memory].
Proof.
  intros Hopen.
  destruct (conversation_invariant evs st) as [Hc|[Htab _]].
  { rewrite Hc in Hopen. discriminate. }
  split; [exact Htab|]. rewrite run_snoc.
  rewrite render_content_closed by reflexivity.
  unfold step, exec. rewrite onBack_eq. simpl. by rewrite Htab.
Qed.

Lemma back_lands_on_memory_witness :
  render_content
    (app (run [PressedNavItem highlights; PressedThemeToggle;
               OpenConversation (JStr "Alex")]
              (boot (healthy ∅))))
  = [RetroConversationScreen (JStr "Alex") JUndefined JUndefined
                             JUndefined JUndefined]
  ∧ render_content
      (app (run ([PressedNavItem highlights; PressedThemeToggle;
                  OpenConversation (JStr "Alex")] ++ [PressedBack])
                (boot (healthy ∅))))
    = [RetroPeopleScreen].
Proof.
  split; [reflexivity|].
  apply (back_lands_on_memory
           [PressedNavItem highlights; PressedThemeToggle;
            OpenConversation (JStr "Alex")] (healthy ∅)).
  reflexivity.
Defined.

(** ** The theme button and the navigation bar *)

Lemma strict_eq_str_tab v t :
  Js.strict_eq_str v (tab_id t) = true ↔ enumerated_tab v = Some t.
Proof.
  split.
  - destruct v as [| |b|x|n|s|d|props|props]; try discriminate.
    unfold Js.strict_eq_str. intros ->%String.eqb_eq.
    apply enumerated_tab_id.
  - intros ->%enumerated_tab_Some. apply String.eqb_refl.
Qed.

Lemma tab_screen_inj retro t t' :
  tab_screen retro t = tab_screen retro t' → t = t'.
Proof. destruct retro, t, t'; (reflexivity || discriminate). Qed.

Lemma render_content_tab s t :
  Js.truthy (activeConversation s) = false →
  render_content s = [tab_screen (isRetroTheme s) t]
  ↔ Js.strict_eq_str (activeTab s) (tab_id t) = true.
Proof.
  intros Hc. rewrite (render_content_closed s Hc), strict_eq_str_tab.
  destruct (enumerated_tab (activeTab s)) as [t'|]; split;
    try discriminate.
  - intros [= ->%tab_screen_inj]. reflexivity.
  - by intros [= ->].
Qed.

(** X9: whenever [App] shows the application, the theme button is there
    exactly when the screen mounted is the home screen of the theme in
    effect. *)
Theorem themeToggle_with_home_only
    (s : AppState) (content : list Screen) (themeToggleButton : bool) :
  render s = MainView content themeToggleButton →
  (themeToggleButton = true
   ↔ content = [tab_screen (isRetroTheme s) home]).
Proof.
  unfold render. destruct (isCheckingAgreement s); [discriminate|].
  destruct (negb (hasAcceptedAgreement s)); [discriminate|].
  intros [= <- <-].
  destruct (Js.truthy (activeConversation s)) eqn:Hc.
  - rewrite (render_content_open s Hc). simpl.
    split; [discriminate|]. by destruct (isRetroTheme s).
  - rewrite (render_content_tab s home Hc). reflexivity.
Qed.

Lemma themeToggle_with_home_only_witness :
  (true = true
   ↔ [RetroHomeScreen]
     = [tab_screen
          (isRetroTheme
             (app (run [Mounted; PressedThemeToggle]
                       (boot (healthy
                                {[ AGREEMENT_STORAGE_KEY := "true" ]})))))
          home]).
Proof.
  apply (themeToggle_with_home_only
           (app (run [Mounted; PressedThemeToggle]
                     (boot (healthy {[ AGREEMENT_STORAGE_KEY := "true" ]}))))).
  reflexivity.
Defined.

Lemma render_navBar_active s t :
  (t, true) ∈ render_navBar s
  ↔ Js.strict_eq_str (activeTab s) (tab_id t) = true.
Proof.
  unfold render_navBar. rewrite !elem_of_cons, elem_of_nil.
  split.
  - intros [H|[H|[H|[H|[]]]]]; injection H as -> H; simpl; by rewrite <- H.
  - intros Ht. destruct t; simpl in Ht; rewrite Ht; tauto.
Qed.

(** X10: in every session from the initial state, while a conversation is
    open the navigation bar highlights the Memory item and no other; while
    none is open, an item is highlighted exactly when the screen mounted is
    that item's. *)
Theorem navBar_highlight (evs : list Event) (st : Storage) :
  (Js.truthy (activeConversation (app (run evs (boot st)))) = true →
   render_navBar (app (run evs (boot st)))
   = [(home, false); (upload, false); (highlights, false); (memory, true)])
  ∧ (Js.truthy (activeConversation (app (run evs (boot st)))) = false →
     ∀ t : Tab,
       (t, true) ∈ render_navBar (app (run evs (boot st)))
       ↔ render_content (app (run evs (boot st)))
         = [tab_screen (isRetroTheme (app (run evs (boot st)))) t]).
Proof.
  split.
  - intros Hopen.
    destruct (conversation_invariant evs st) as [Hc|[Htab _]].
    { rewrite Hc in Hopen. discriminate. }
    unfold render_navBar. by rewrite Htab.
  - intros Hc t. by rewrite render_navBar_active, render_content_tab.
Qed.

(** ** Repeating an event *)

(** Whether a payload is accepted, and as what, does not depend on the
    world. *)
Lemma handleOpenConversation_uniform payload :
  (∀ w, handleOpenConversation payload w = (Normal (), w))
  ∨ ∃ target, ∀ w, handleOpenConversation payload w
                   = (Normal (), opened target w).
Proof.
  destruct payload as [| |b|x|k|s|d|props|props].
  1-5, 7, 9: left; intros w; apply handleOpenConversation_other;
    intros; discriminate.
  - destruct (String.eqb s "") eqn:Hs.
    + left. intros w. by rewrite handleOpenConversation_string, Hs.
    + right. eexists. intros w.
      by rewrite handleOpenConversation_string, Hs.
  - destruct (Js.truthy (Js.get (JObj props) "name")) eqn:Hn.
    + right. eexists. intros w.
      by rewrite handleOpenConversation_object, Hn.
    + left. intros w. by rewrite handleOpenConversation_object, Hn.
Qed.

(** X11: an event that happens twice in a row (a double tap, a screen
    calling back twice, the effect run again, a second write settling)
    leaves the component state and the storage as a single occurrence
    does, with two exceptions: for the checkbox and the theme button the
    second press undoes the first, and for [onNavigateTab] called with a
    function the setter applies the function again, to what it returned
    the first time. *)
Theorem step_twice (ev : Event) (w : World) :
  match ev with
  | PressedCheckbox | PressedThemeToggle =>
      app (step (step w ev) ev) = app w
  | NavigateTab (JFun props) =>
      activeConversation (app (step (step w ev) ev)) = JNull
      ∧ activeTab (app (step w ev))
        = functions w (JFun props) (activeTab (app w))
      ∧ activeTab (app (step (step w ev) ev))
        = functions w (JFun props)
            (functions w (JFun props) (activeTab (app w)))
  | _ => app (step (step w ev) ev) = app (step w ev)
  end
  ∧ storage (step (step w ev) ev) = storage (step w ev).
Proof.
  unfold step, exec.
  destruct ev as [| | |payload|tab| | |t|onGet onSet| | |fn]; simpl.
  - destruct (checkAgreementStatus_cases w) as [[e He]|[[He Hv]|[He Hv]]].
    + rewrite (checkAgreementStatus_rejected e w He).
      rewrite (checkAgreementStatus_rejected e) by exact He.
      by destruct w as [[] ? ? ?].
    + rewrite (checkAgreementStatus_sentinel w He Hv).
      rewrite checkAgreementStatus_sentinel by assumption.
      by destruct w as [[] ? ? ?].
    + rewrite (checkAgreementStatus_other w He Hv).
      rewrite checkAgreementStatus_other by assumption.
      by destruct w as [[] ? ? ?].
  - destruct w as [[tab0 conv acc chk tick retro] sto j fns]. simpl.
    unfold with_agreementChecked. simpl. by rewrite negb_involutive.
  - destruct (setItemError (storage w)) as [e|] eqn:He.
    + rewrite (handleAcceptAgreement_rejected e w He).
      by rewrite (handleAcceptAgreement_rejected e) by exact He.
    + rewrite (handleAcceptAgreement_written w He).
      rewrite handleAcceptAgreement_written by reflexivity. simpl.
      by rewrite insert_insert_eq.
  - destruct (handleOpenConversation_uniform payload) as [Hno|[tg Hopen]].
    + by rewrite !Hno.
    + by rewrite !Hopen.
  - rewrite handleNavigateTab_eq.
    destruct tab as [| |b|x|n|s|d|props|props];
      destruct (Js.truthy _) eqn:Htab;
      rewrite handleNavigateTab_eq, Htab; try discriminate; done.
  - done.
  - destruct w as [[tab0 conv acc chk tick retro] sto j fns]. simpl.
    unfold with_isRetroTheme. simpl. by rewrite negb_involutive.
  - done.
  - done.
  - done.
  - destruct (setItemError (storage w)) as [e|] eqn:He.
    + rewrite (handleAcceptAgreement_resume_rejected e w He).
      by rewrite (handleAcceptAgreement_resume_rejected e) by exact He.
    + rewrite (handleAcceptAgreement_resume_written w He).
      rewrite handleAcceptAgreement_resume_written by reflexivity. simpl.
      by rewrite insert_insert_eq.
  - done.
Qed.

(** ** Across launches *)

(** X12: if a session ends accepted, then launching again on the storage it
    left (the storage answering reads) goes from the spinner straight to
    the home screen of the standard theme, with the theme button. *)
Theorem relaunch_skips_agreement (evs : list Event) (st : Storage) :
  hasAcceptedAgreement (app (run evs (boot st))) = true →
  getItemError (storage (run evs (boot st))) = None →
  render (app (run [Mounted] (boot (storage (run evs (boot st))))))
  = MainView [HomeScreen] true.
Proof.
  intros Hacc Hread. apply acceptance_persisted in Hacc.
  unfold run at 1. simpl. unfold step, exec. simpl.
  by rewrite checkAgreementStatus_sentinel.
Qed.

Lemma relaunch_skips_agreement_witness :
  render
    (app (run [Mounted]
              (boot (storage
                       (run [Mounted; PressedCheckbox; PressedAgree;
                             PressedThemeToggle;
                             OpenConversation (JStr "Alex")]
                            (boot (healthy ∅)))))))
  = MainView [HomeScreen] true.
Proof.
  apply (relaunch_skips_agreement
           [Mounted; PressedCheckbox; PressedAgree; PressedThemeToggle;
            OpenConversation (JStr "Alex")] (healthy ∅));
    reflexivity.
Defined.

(** ** Sessions driven through the controls *)

Lemma gate_invariant_step st ticks pending w ev :
  gate_invariant st ticks pending w →
  offers (render (app w)) ev = true →
  can_happen pending ev = true →
  gate_invariant st
    (match ev with PressedCheckbox => S ticks | _ => ticks end)
    (pending_after pending ev) (step w ev).
Proof.
  unfold gate_invariant. intros Hinv Hoff Hcan. revert Hinv Hoff Hcan.
  step_cases w ev;
    try (destruct (handleOpenConversation_cases payload w)
           as [->|(tg & _ & ->)]);
    destruct w as [[tab0 conv acc chk tick retro] sto j fns];
    destruct pending as [|pending];
    unfold render; simpl in *;
    destruct chk, acc; simpl; intros Hinv Hoff Hcan; try discriminate;
    intuition (try congruence; try lia).
Qed.

Lemma gate_invariant_ui_run st evs ticks pending w w' :
  gate_invariant st ticks pending w →
  ui_run_pending pending evs w = Some w' →
  ∃ pending', gate_invariant st (ticks + checkbox_presses evs) pending' w'.
Proof.
  revert ticks pending w.
  induction evs as [|ev evs IH]; intros ticks pending w Hinv; simpl.
  - intros [= <-]. exists pending.
    by rewrite Nat.add_0_r.
  - destruct (offers (render (app w)) ev) eqn:Hoff; [|discriminate].
    destruct (can_happen pending ev) eqn:Hcan; [|discriminate]. simpl.
    intros Hrun.
    destruct (IH _ _ _ (gate_invariant_step _ _ _ _ _ Hinv Hoff Hcan) Hrun)
      as [pending' Hinv'].
    exists pending'. rewrite checkbox_presses_cons.
    destruct ev; by rewrite ?Nat.add_succ_r in *.
Qed.

Lemma gate_invariant_boot st : gate_invariant st 0 0 (boot st).
Proof. unfold gate_invariant. simpl. intuition (try discriminate; lia). Qed.

(** X13: in a session driven through the controls [App] renders, writes
    settling at any later time included, the agreement is never accepted
    without the checkbox having been pressed, unless the storage already
    held the sentinel at launch.  (The box need not still be ticked: it can
    be unticked while the write is in flight.) *)
Theorem acceptance_needs_tick
    (evs : list Event) (st : Storage) (w : World) :
  ui_run evs (boot st) = Some w →
  hasAcceptedAgreement (app w) = true →
  0 < checkbox_presses evs
  ∨ items st !! AGREEMENT_STORAGE_KEY = Some "true".
Proof.
  intros Hrun Hacc.
  destruct (gate_invariant_ui_run st evs _ _ _ _ (gate_invariant_boot st) Hrun)
    as (pending' & _ & _ & _ & _ & H).
  exact (H Hacc).
Qed.

Lemma acceptance_needs_tick_witness :
  (0 < checkbox_presses
         [Mounted; PressedCheckbox; PressedAgreePending; PressedCheckbox;
          WriteSettled]
   ∨ items (healthy ∅) !! AGREEMENT_STORAGE_KEY = Some "true")
  ∧ hasAcceptedAgreement
      (app (run [Mounted; PressedCheckbox; PressedAgreePending;
                 PressedCheckbox; WriteSettled]
                (boot (healthy ∅))))
    = true
  ∧ agreementChecked
      (app (run [Mounted; PressedCheckbox; PressedAgreePending;
                 PressedCheckbox; WriteSettled]
                (boot (healthy ∅))))
    = false.
Proof.
  split; [|split; reflexivity].
  eapply (acceptance_needs_tick
            [Mounted; PressedCheckbox; PressedAgreePending; PressedCheckbox;
             WriteSettled] (healthy ∅));
    reflexivity.
Defined.

(** X14: in a session driven through the controls [App] renders, as long
    as the agreement is not accepted nothing of the application has
    happened: the home tab is the active one, no conversation is open and
    the theme is the standard one. *)
Theorem nothing_before_acceptance
    (evs : list Event) (st : Storage) (w : World) :
  ui_run evs (boot st) = Some w →
  hasAcceptedAgreement (app w) = false →
  activeTab (app w) = JStr "home"
  ∧ activeConversation (app w) = JNull
  ∧ isRetroTheme (app w) = false.
Proof.
  intros Hrun Hacc.
  destruct (gate_invariant_ui_run st evs _ _ _ _ (gate_invariant_boot st) Hrun)
    as (pending' & _ & H & _).
  by apply H.
Qed.

Lemma nothing_before_acceptance_witness :
  activeTab
    (app (run [StorageFaults None (Some (JStr "EIO")); Mounted;
               PressedCheckbox; PressedAgree; PressedCheckbox]
              (boot (healthy ∅))))
  = JStr "home"
  ∧ activeConversation
      (app (run [StorageFaults None (Some (JStr "EIO")); Mounted;
                 PressedCheckbox; PressedAgree; PressedCheckbox]
                (boot (healthy ∅))))
    = JNull
  ∧ isRetroTheme
      (app (run [StorageFaults None (Some (JStr "EIO")); Mounted;
                 PressedCheckbox; PressedAgree; PressedCheckbox]
                (boot (healthy ∅))))
    = false.
Proof.
  apply (nothing_before_acceptance
           [StorageFaults None (Some (JStr "EIO")); Mounted;
            PressedCheckbox; PressedAgree; PressedCheckbox] (healthy ∅));
    reflexivity.
Defined.

(** X15: in a session driven through the controls [App] renders, the step
    that gets the agreement accepted (the mount effect finding the
    sentinel, or the button pressed with the write going through) always
    leads to the home screen of the standard theme, with the theme
    button. *)
Theorem acceptance_opens_home
    (evs : list Event) (st : Storage) (w : World) (ev : Event) :
  ui_run evs (boot st) = Some w →
  hasAcceptedAgreement (app w) = false →
  offers (render (app w)) ev = true →
  hasAcceptedAgreement (app (step w ev)) = true →
  render (app (step w ev)) = MainView [HomeScreen] true.
Proof.
  intros Hrun Hacc Hoff Hacc'.
  destruct (gate_invariant_ui_run st evs _ _ _ _ (gate_invariant_boot st) Hrun)
    as (pending' & _ & Hnav & _).
  destruct (Hnav Hacc) as (Htab & Hconv & Hretro). clear Hnav Hrun.
  revert Hacc Hoff Hacc' Htab Hconv Hretro.
  step_cases w ev;
    try (destruct (handleOpenConversation_cases payload w)
           as [->|(tg & _ & ->)]);
    destruct w as [[tab0 conv acc chk tick retro] sto j fns];
    unfold render; simpl in *;
    intros -> Hoff Hacc' -> -> ->; try discriminate;
    destruct chk; try discriminate; reflexivity.
Qed.

Lemma acceptance_opens_home_witness :
  render (app (step (run [Mounted; PressedCheckbox] (boot (healthy ∅)))
                    PressedAgree))
  = MainView [HomeScreen] true.
Proof.
  apply (acceptance_opens_home [Mounted; PressedCheckbox] (healthy ∅));
    reflexivity.
Defined.

(** The controls at work: the button does nothing for the session until the
    box is ticked, no control exists under the spinner, and the upload
    screen has no way to open a conversation. *)
Example controls_not_offered :
  ui_run [Mounted; PressedAgree] (boot (healthy ∅)) = None
  ∧ ui_run [PressedCheckbox] (boot (healthy ∅)) = None
  ∧ ui_run [Mounted; PressedNavItem upload; OpenConversation (JStr "Alex")]
           (boot (healthy {[ AGREEMENT_STORAGE_KEY := "true" ]}))
    = None
  ∧ ui_run [Mounted; PressedNavItem memory; PressedThemeToggle]
           (boot (healthy {[ AGREEMENT_STORAGE_KEY := "true" ]}))
    = None
  ∧ is_Some (ui_run [Mounted; PressedThemeToggle; PressedNavItem memory;
                     OpenConversation (JStr "Alex"); PressedBack]
                    (boot (healthy {[ AGREEMENT_STORAGE_KEY := "true" ]}))).
Proof.
  repeat split; try (vm_compute; reflexivity).
  eexists. vm_compute. reflexivity.
Qed.

(** [onNavigateTab] called with a function: the setter takes it for an
    updater.  With functions that append an exclamation mark to a string,
    two calls from the home tab leave [activeTab] at ["home!!"], which is no
    tab, and no screen mounted. *)
Example navigate_with_updater :
  activeTab
    (app (run [FunctionsDefined
                 (λ _ prev, match prev with
                            | JStr s => JStr (s +:+ "!")
                            | _ => prev
                            end);
               NavigateTab (JFun ∅); NavigateTab (JFun ∅)]
              (boot (healthy ∅))))
  = JStr "home!!"
  ∧ render_content
      (app (run [FunctionsDefined
                   (λ _ prev, match prev with
                              | JStr s => JStr (s +:+ "!")
                              | _ => prev
                              end);
                 NavigateTab (JFun ∅); NavigateTab (JFun ∅)]
                (boot (healthy ∅))))
    = [].
Proof. split; vm_compute; reflexivity. Qed.

(** A press whose write settles at once is a press followed by the write
    settling: same world, journal included. *)
Example agree_then_settle w :
  run [PressedAgreePending; WriteSettled] w = run [PressedAgree] w.
Proof. reflexivity. Qed.
